(** * PropAMM signal engine: [offchain/prediction/signal_engine.py]

    A shallow embedding of [SignalEngine.build_plan] and of the two
    dataclasses it reads and writes.  Python's [int] is [Z]; Python's
    [float] is the IEEE 754 binary64 type, here Rocq's primitive [float];
    a raised exception is the [Raise] case of an error monad. *)

From Stdlib Require Import ZArith Bool String Floats List Lia.
Import ListNotations.

Set Warnings "-inexact-float".

Local Open Scope string_scope.
Local Open Scope Z_scope.

(** ** Exceptions *)

Inductive exception : Type :=
| ValueError (msg : string)
| OverflowError (msg : string)
| ZeroDivisionError (msg : string)
| Web3ValidationError (function_name : string).

Inductive result (A : Type) : Type :=
| Ok (a : A)
| Raise (e : exception).

Arguments Ok {A} a.
Arguments Raise {A} e.

Definition bind {A B : Type} (c : result A) (k : A -> result B) : result B :=
  match c with
  | Ok a => k a
  | Raise e => Raise e
  end.

Notation "x <- c ;; k" := (bind c (fun x => k))
  (at level 61, c at next level, right associativity).
Notation "' pat <- c ;; k" := (bind c (fun x => match x with pat => k end))
  (at level 61, pat pattern, c at next level, right associativity).

(** ** The Python primitives [build_plan] uses *)

Module Py.

(** [float(n)] for an [int]: the nearest binary64 value, ties to even;
    [OverflowError] when that value would not be finite. *)
Definition int_to_float (n : Z) : result float :=
  match binary_normalize prec emax n 0 false with
  | S754_infinity _ => Raise (OverflowError "int too large to convert to float")
  | sf => Ok (SF2Prim sf)
  end.

(** [int(x)] for a [float]: truncation toward zero. *)
Definition float_to_int (x : float) : result Z :=
  match Prim2SF x with
  | S754_nan => Raise (ValueError "cannot convert float NaN to integer")
  | S754_infinity _ => Raise (OverflowError "cannot convert float infinity to integer")
  | S754_zero _ => Ok 0
  | S754_finite s m e => Ok (cond_Zopp s (Z.shiftl (Zpos m) e))
  end.

(** [n * x] with [n : int] and [x : float]: the [int] is converted first. *)
Definition int_mul_float (n : Z) (x : float) : result float :=
  fn <- int_to_float n ;;
  Ok (fn * x)%float.

(** [a / b] on floats. *)
Definition truediv (a b : float) : result float :=
  if (b =? 0)%float then Raise (ZeroDivisionError "float division by zero")
  else Ok (a / b)%float.

(** [a > b] on floats. *)
Definition gt (a b : float) : bool := (b <? a)%float.

(** [int(n * x)], the idiom the engine uses to rescale an integer. *)
Definition int_of_scaled (n : Z) (x : float) : result Z :=
  v <- int_mul_float n x ;;
  float_to_int v.

End Py.

(** ** Data model *)

Definition FEE_BASE : Z := 1000000.

Module CurveSnapshot.
Record t : Type := make {
  concentration : Z;
  mult_x : Z;
  mult_y : Z;
  spread : Z;
  target_x : Z;
  target_y : Z
}.
End CurveSnapshot.

Module CurveUpdatePlan.
Record t : Type := make {
  mult_x : Z;
  mult_y : Z;
  concentration : Z;
  spread : option Z;
  target_x : option Z;
  target_y : option Z
}.
End CurveUpdatePlan.

(** ** The engine *)

Module SignalEngine.

Record t : Type := make {
  price_tolerance : float;
  volatility_threshold : float;
  concentration_widen_factor : float;
  spread_step : Z;
  concentration_bounds : Z * Z
}.

(** [SignalEngine()] with every keyword left at its default. *)
Definition default : t :=
  make 0.001%float 0.02%float 0.5%float 500 (1000000, 200000000).

Definition InvalidInput : exception :=
  ValueError "Current price must be positive".

Definition build_plan (self : t) (snapshot : CurveSnapshot.t)
    (predicted_price current_price realized_volatility : float)
    : result CurveUpdatePlan.t :=
  if (current_price <=? 0)%float then Raise InvalidInput
  else
    price_ratio <- Py.truediv predicted_price current_price ;;
    let deviation := abs (price_ratio - 1)%float in
    let mult_x := CurveSnapshot.mult_x snapshot in
    mult_y <-
      (if Py.gt deviation (price_tolerance self)
       then v <- Py.int_of_scaled (CurveSnapshot.mult_y snapshot) price_ratio ;;
            Ok (Z.max 1 v)
       else Ok (CurveSnapshot.mult_y snapshot)) ;;
    '(concentration, new_spread) <-
      (if Py.gt realized_volatility (volatility_threshold self)
       then c <- Py.int_of_scaled (CurveSnapshot.concentration snapshot)
                   (concentration_widen_factor self) ;;
            let '(lower, upper) := concentration_bounds self in
            Ok (Z.max lower (Z.min c upper),
                Some (Z.min FEE_BASE
                        (CurveSnapshot.spread snapshot + spread_step self)))
       else Ok (Z.max (fst (concentration_bounds self))
                  (Z.min (CurveSnapshot.concentration snapshot)
                     (snd (concentration_bounds self))),
                None)) ;;
    let target_x := CurveSnapshot.target_x snapshot in
    target_y <-
      (if Py.gt deviation (price_tolerance self)
          && (0 <? CurveSnapshot.target_y snapshot)
       then Py.int_of_scaled (CurveSnapshot.target_y snapshot) price_ratio
       else Ok (CurveSnapshot.target_y snapshot)) ;;
    let '(rebalance_x, rebalance_y) :=
      if negb (target_x =? CurveSnapshot.target_x snapshot)
         || negb (target_y =? CurveSnapshot.target_y snapshot)
      then (Some target_x, Some target_y)
      else (None, None) in
    Ok (CurveUpdatePlan.make mult_x mult_y concentration
          new_spread rebalance_x rebalance_y).

End SignalEngine.

(** ** The signals and the parts of a plan *)

(** The two signals derived from the prices (lines 66-67 of the source). *)
Definition price_ratio (predicted_price current_price : float) : float :=
  (predicted_price / current_price)%float.

Definition deviation (predicted_price current_price : float) : float :=
  abs (price_ratio predicted_price current_price - 1)%float.

Section PlanParts.

Import SignalEngine.

Variable self : SignalEngine.t.
Variable snapshot : CurveSnapshot.t.
Variables predicted_price current_price realized_volatility : float.

(** The price trigger and the volatility trigger. *)
Definition price_moved : bool :=
  Py.gt (deviation predicted_price current_price) (price_tolerance self).

Definition volatile : bool :=
  Py.gt realized_volatility (volatility_threshold self).

(** The three results a returned plan is assembled from. *)
Definition mult_y_is (my : Z) : Prop :=
  if price_moved
  then exists v, Py.int_of_scaled (CurveSnapshot.mult_y snapshot)
                   (price_ratio predicted_price current_price) = Ok v
                 /\ my = Z.max 1 v
  else my = CurveSnapshot.mult_y snapshot.

Definition concentration_is (c : Z) : Prop :=
  if volatile
  then exists v, Py.int_of_scaled (CurveSnapshot.concentration snapshot)
                   (concentration_widen_factor self) = Ok v
                 /\ c = Z.max (fst (concentration_bounds self))
                          (Z.min v (snd (concentration_bounds self)))
  else c = Z.max (fst (concentration_bounds self))
             (Z.min (CurveSnapshot.concentration snapshot)
                (snd (concentration_bounds self))).

Definition candidate_target_y_is (ty : Z) : Prop :=
  if price_moved && (0 <? CurveSnapshot.target_y snapshot)
  then Py.int_of_scaled (CurveSnapshot.target_y snapshot)
         (price_ratio predicted_price current_price) = Ok ty
  else ty = CurveSnapshot.target_y snapshot.

Definition assemble (my c ty : Z) : CurveUpdatePlan.t :=
  let moved := negb (CurveSnapshot.target_x snapshot =? CurveSnapshot.target_x snapshot)
               || negb (ty =? CurveSnapshot.target_y snapshot) in
  CurveUpdatePlan.make (CurveSnapshot.mult_x snapshot) my c
    (if volatile
     then Some (Z.min FEE_BASE (CurveSnapshot.spread snapshot + spread_step self))
     else None)
    (if moved then Some (CurveSnapshot.target_x snapshot) else None)
    (if moved then Some ty else None).

End PlanParts.

(** Every [int(n * x)] a call reaches yields an integer. *)
Definition conversions_succeed (self : SignalEngine.t) (snapshot : CurveSnapshot.t)
    (predicted_price current_price realized_volatility : float) : Prop :=
  let ratio := price_ratio predicted_price current_price in
  (price_moved self predicted_price current_price = true ->
   exists v, Py.int_of_scaled (CurveSnapshot.mult_y snapshot) ratio = Ok v) /\
  (volatile self realized_volatility = true ->
   exists v, Py.int_of_scaled (CurveSnapshot.concentration snapshot)
               (SignalEngine.concentration_widen_factor self) = Ok v) /\
  (price_moved self predicted_price current_price = true ->
   0 < CurveSnapshot.target_y snapshot ->
   exists v, Py.int_of_scaled (CurveSnapshot.target_y snapshot) ratio = Ok v).

(** The rounding the specification writes as [round(x)]: the nearest
    integer, ties to even, as Python's built-in computes it.  The source
    never calls it; it is here to state what the specification says. *)
Definition spec_round (x : float) : result Z :=
  match Prim2SF x with
  | S754_nan => Raise (ValueError "cannot convert float NaN to integer")
  | S754_infinity _ => Raise (OverflowError "cannot convert float infinity to integer")
  | S754_zero _ => Ok 0
  | S754_finite s m e =>
      if 0 <=? e then Ok (cond_Zopp s (Z.shiftl (Zpos m) e))
      else
        let d := Z.shiftl 1 (- e) in
        let q := Zpos m / d in
        let r := Zpos m mod d in
        let q' := match 2 * r ?= d with
                  | Lt => q
                  | Gt => q + 1
                  | Eq => if Z.even q then q else q + 1
                  end in
        Ok (cond_Zopp s q')
  end.

(** A binary64 value that is not negative: a zero, a finite value or an
    infinity with a clear sign bit, or NaN (which has no sign). *)
Definition sf_nonneg (x : spec_float) : bool :=
  match x with
  | S754_zero s | S754_infinity s | S754_finite s _ _ => negb s
  | S754_nan => true
  end.

(** ** Sample inputs *)

(** The pair of the demo script. *)
Definition demo_snapshot : CurveSnapshot.t :=
  CurveSnapshot.make 1000000 (10 ^ 18) (10 ^ 18) 0 (100 * 10 ^ 18) (140000 * 10 ^ 6).

(** A pair quoted with tiny fixed-point values, where fractions show. *)
Definition small_snapshot : CurveSnapshot.t :=
  CurveSnapshot.make 1000000 (10 ^ 18) 3 0 (100 * 10 ^ 18) 3.

(** The plan of [scenario_B]. *)
Definition plan_B : CurveUpdatePlan.t :=
  CurveUpdatePlan.make (10 ^ 18) 1020000000000000000 1000000
    (Some 500) (Some (100 * 10 ^ 18)) (Some 142800000000).

(** The demo pair with its spread already at the cap. *)
Definition capped_snapshot : CurveSnapshot.t :=
  CurveSnapshot.make 1000000 (10 ^ 18) (10 ^ 18) FEE_BASE
    (100 * 10 ^ 18) (140000 * 10 ^ 6).

(** An engine whose bounds are given upside down. *)
Definition inverted_engine : SignalEngine.t :=
  SignalEngine.make 0.001 0.02 0.5 500 (200000000, 1000000).

(** ** The update bot: [offchain/update_bot.py]

    The contract and the node behind [web3] are external.  What the bot
    asks of them is kept: the views it reads, the check of every argument
    against [PROP_AMM_ABI] when a contract function is called, and every
    transaction it builds, in the order it sends them.  [web3] raises
    [Web3ValidationError] when an argument does not fit its ABI type; the
    exception is kept with the name of the function called. *)

(** The values of the ABI type [uint256] and of [uint8]. *)
Definition uint256 (n : Z) : bool := (0 <=? n) && (n <? 2 ^ 256).

Definition uint8 (n : Z) : bool := (0 <=? n) && (n <? 2 ^ 8).

(** The functions of [PROP_AMM_ABI] and the tuples its views return. *)
Module PropAMM.

(** A function applied to arguments; [pairId] stands for a [bytes32]. *)
Inductive call : Type :=
| updateCurveParams (pairId : string) (newMultX newMultY newConcentration : Z)
| setSpread (pairId : string) (newSpread : Z)
| rebalanceLiquidity (pairId : string) (newTargetX newTargetY : Z).

Definition name (c : call) : string :=
  match c with
  | updateCurveParams _ _ _ _ => "updateCurveParams"
  | setSpread _ _ => "setSpread"
  | rebalanceLiquidity _ _ _ => "rebalanceLiquidity"
  end.

(** The arguments fit the types the ABI declares: every integer argument
    is a [uint256]. *)
Definition accepts (c : call) : bool :=
  match c with
  | updateCurveParams _ newMultX newMultY newConcentration =>
      uint256 newMultX && uint256 newMultY && uint256 newConcentration
  | setSpread _ newSpread => uint256 newSpread
  | rebalanceLiquidity _ newTargetX newTargetY =>
      uint256 newTargetX && uint256 newTargetY
  end.

(** [getParametersWithTimestamp(pairId).params], components 0 to 5. *)
Record Parameters : Type := {
  concentration : Z;
  multX : Z;
  multY : Z;
  baseInvariant : Z;
  feeRate : Z;
  spread : Z
}.

(** [getPair(pairId)], components 0 to 9. *)
Record Pair : Type := {
  tokenX : string;
  tokenY : string;
  reserveX : Z;
  reserveY : Z;
  targetX : Z;
  xRetainDecimals : Z;
  yRetainDecimals : Z;
  targetYBasedLock : bool;
  targetYReference : Z;
  exists_ : bool
}.

(** The integer components have the types the ABI declares for them. *)
Definition parameters_typed (p : Parameters) : bool :=
  uint256 (concentration p) && uint256 (multX p) && uint256 (multY p)
  && uint256 (baseInvariant p) && uint256 (feeRate p) && uint256 (spread p).

Definition pair_typed (p : Pair) : bool :=
  uint256 (reserveX p) && uint256 (reserveY p) && uint256 (targetX p)
  && uint8 (xRetainDecimals p) && uint8 (yRetainDecimals p)
  && uint256 (targetYReference p).

End PropAMM.

(** The dictionary [_send] hands to [build_transaction], with the call. *)
Record Transaction : Type := {
  tx_call : PropAMM.call;
  tx_from : string;
  tx_nonce : Z;
  tx_gas : Z;
  tx_gasPrice : Z
}.

(** What the bot reads from the node and the contract, and the hash the
    node answers for a signed transaction.  What a view returns is decoded
    against the ABI, so its integers have their declared types. *)
Record Web3 : Type := {
  get_transaction_count : string -> Z;
  gas_price : Z;
  getParametersWithTimestamp : string -> PropAMM.Parameters * Z * Z;
  getPair : string -> PropAMM.Pair;
  send_raw_transaction : Transaction -> string;
  parameters_decoded : forall pairId,
    PropAMM.parameters_typed (fst (fst (getParametersWithTimestamp pairId))) = true;
  pair_decoded : forall pairId,
    PropAMM.pair_typed (getPair pairId) = true
}.

(** [pair_id] is the [HexBytes] of a [bytes32]. *)
Record BotConfig : Type := {
  rpc_url : string;
  contract_address : string;
  pair_id : string;
  private_key : string;
  dry_run : bool
}.

Module PropAMMBot.

Record t : Type := make {
  web3 : Web3;
  config : BotConfig;
  account_address : string
}.

(** A step that may raise and may send: it takes the log of what the node
    has received and gives a result with the log afterwards. *)
Definition sending (A : Type) : Type :=
  list Transaction -> result A * list Transaction.

Definition ret {A : Type} (a : A) : sending A := fun sent => (Ok a, sent).

Definition raise {A : Type} (e : exception) : sending A :=
  fun sent => (Raise e, sent).

Definition and_then {A B : Type} (c : sending A) (k : A -> sending B)
    : sending B :=
  fun sent =>
    match c sent with
    | (Ok a, sent') => k a sent'
    | (Raise e, sent') => (Raise e, sent')
    end.

Notation "x <~ c ;; k" := (and_then c (fun x => k))
  (at level 61, c at next level, right associativity).
Notation "' pat <~ c ;; k" :=
  (and_then c (fun x => match x with pat => k end))
  (at level 61, pat pattern, c at next level, right associativity).

Definition fetch_snapshot (self : t) : CurveSnapshot.t :=
  let '(params, _, _) := getParametersWithTimestamp (web3 self) (pair_id (config self)) in
  let pair := getPair (web3 self) (pair_id (config self)) in
  CurveSnapshot.make
    (PropAMM.concentration params)
    (PropAMM.multX params)
    (PropAMM.multY params)
    (PropAMM.spread params)
    (PropAMM.targetX pair)
    (PropAMM.targetYReference pair).

(** [self.contract.functions.<name>(args)]: the arguments are matched
    against the ABI before anything is built. *)
Definition contract_function (c : PropAMM.call) : sending PropAMM.call :=
  if PropAMM.accepts c then ret c
  else raise (Web3ValidationError (PropAMM.name c)).

(** The inner [_send]: build, sign and send one transaction. *)
Definition _send (self : t) (gas_price : Z) (tx_builder : PropAMM.call)
    (current_nonce : Z) : sending string :=
  fun sent =>
    let tx := {| tx_call := tx_builder;
                 tx_from := account_address self;
                 tx_nonce := current_nonce;
                 tx_gas := 400000;
                 tx_gasPrice := gas_price |} in
    (Ok (send_raw_transaction (web3 self) tx), (sent ++ [tx])%list).

Definition execute_plan (self : t) (plan : CurveUpdatePlan.t)
    : sending (list string) :=
  if dry_run (config self) then ret []
  else
    let nonce := get_transaction_count (web3 self) (account_address self) in
    let gas_price := gas_price (web3 self) in
    let tx_hashes : list string := [] in
    update_tx <~ contract_function
                   (PropAMM.updateCurveParams (pair_id (config self))
                      (CurveUpdatePlan.mult_x plan) (CurveUpdatePlan.mult_y plan)
                      (CurveUpdatePlan.concentration plan)) ;;
    h <~ _send self gas_price update_tx nonce ;;
    let tx_hashes := (tx_hashes ++ [h])%list in
    let nonce := nonce + 1 in
    '(tx_hashes, nonce) <~
      match CurveUpdatePlan.spread plan with
      | Some spread =>
          spread_tx <~ contract_function
                         (PropAMM.setSpread (pair_id (config self)) spread) ;;
          h <~ _send self gas_price spread_tx nonce ;;
          ret ((tx_hashes ++ [h])%list, nonce + 1)
      | None => ret (tx_hashes, nonce)
      end ;;
    match CurveUpdatePlan.target_x plan, CurveUpdatePlan.target_y plan with
    | Some target_x, Some target_y =>
        rebalance_tx <~ contract_function
                          (PropAMM.rebalanceLiquidity (pair_id (config self))
                             target_x target_y) ;;
        h <~ _send self gas_price rebalance_tx nonce ;;
        ret (tx_hashes ++ [h])%list
    | _, _ => ret tx_hashes
    end.

(** [main] from the point where the forecast, the current price and the
    realised volatility are known (the predictor and the data frame are
    external): engine, snapshot, plan, then the dry-run return or the
    transactions. *)
Definition main (bot : t) (predicted_price current_price realized_vol : float)
    : sending (list string) :=
  let engine := SignalEngine.default in
  let snapshot := fetch_snapshot bot in
  match SignalEngine.build_plan engine snapshot
          predicted_price current_price realized_vol with
  | Raise e => raise e
  | Ok plan =>
      if dry_run (config bot) then ret []
      else tx_hashes <~ execute_plan bot plan ;;
           ret tx_hashes
  end.

(** The transactions one call of [execute_plan] hands to the node. *)
Definition sent_by (self : t) (plan : CurveUpdatePlan.t) : list Transaction :=
  snd (execute_plan self plan []).

(** The calls the three steps of [execute_plan] ask for, in their order. *)
Definition planned_calls (self : t) (plan : CurveUpdatePlan.t)
    : list PropAMM.call :=
  ([PropAMM.updateCurveParams (pair_id (config self))
      (CurveUpdatePlan.mult_x plan) (CurveUpdatePlan.mult_y plan)
      (CurveUpdatePlan.concentration plan)]
   ++ match CurveUpdatePlan.spread plan with
      | Some spread => [PropAMM.setSpread (pair_id (config self)) spread]
      | None => []
      end
   ++ match CurveUpdatePlan.target_x plan, CurveUpdatePlan.target_y plan with
      | Some target_x, Some target_y =>
          [PropAMM.rebalanceLiquidity (pair_id (config self)) target_x target_y]
      | _, _ => []
      end)%list.

(** The transactions [_send] builds for a list of calls, from a nonce on. *)
Fixpoint transactions_for (self : t) (nonce : Z) (calls : list PropAMM.call)
    : list Transaction :=
  match calls with
  | [] => []
  | c :: rest =>
      {| tx_call := c;
         tx_from := account_address self;
         tx_nonce := nonce;
         tx_gas := 400000;
         tx_gasPrice := gas_price (web3 self) |}
      :: transactions_for self (nonce + 1) rest
  end.

(** The calls of a list up to the first one the ABI rejects. *)
Fixpoint accepted_prefix (calls : list PropAMM.call) : list PropAMM.call :=
  match calls with
  | [] => []
  | c :: rest => if PropAMM.accepts c then c :: accepted_prefix rest else []
  end.

End PropAMMBot.

(** ** The demo: [_encode_actions] of [offchain/demo_unified.py] *)

Module Demo.



Section EncodeActions.

(** [contract.address], the ABI encoder behind
    [_encode_transaction_data], and [bytes.hex]. *)
Variable address : string.
Variable encode : PropAMM.call -> string.
Variable hex : string -> string.


End EncodeActions.

End Demo.

(** A node whose contract holds the demo pair, and a live bot on it. *)
Definition demo_web3 : Web3 :=
  {| get_transaction_count := fun _ => 7;
     gas_price := 30;
     getParametersWithTimestamp := fun _ =>
       ({| PropAMM.concentration := 1000000;
           PropAMM.multX := 10 ^ 18;
           PropAMM.multY := 10 ^ 18;
           PropAMM.baseInvariant := 0;
           PropAMM.feeRate := 3000;
           PropAMM.spread := 0 |}, 1700000000, 18000000);
     getPair := fun _ =>
       {| PropAMM.tokenX := "WETH";
          PropAMM.tokenY := "USDC";
          PropAMM.reserveX := 100 * 10 ^ 18;
          PropAMM.reserveY := 140000 * 10 ^ 6;
          PropAMM.targetX := 100 * 10 ^ 18;
          PropAMM.xRetainDecimals := 18;
          PropAMM.yRetainDecimals := 6;
          PropAMM.targetYBasedLock := false;
          PropAMM.targetYReference := 140000 * 10 ^ 6;
          PropAMM.exists_ := true |};
     send_raw_transaction := fun tx =>
       match tx_call tx with
       | PropAMM.updateCurveParams _ _ _ _ => "0xaa"
       | PropAMM.setSpread _ _ => "0xbb"
       | PropAMM.rebalanceLiquidity _ _ _ => "0xcc"
       end;
     parameters_decoded := fun _ => eq_refl;
     pair_decoded := fun _ => eq_refl |}.

Definition demo_bot : PropAMMBot.t :=
  PropAMMBot.make demo_web3
    {| rpc_url := "http://localhost:8545";
       contract_address := "0x1212";
       pair_id := "WETH/USDC";
       private_key := "0x01";
       dry_run := false |}
    "0xmaker".


(** * Properties *)

(** ** The two scenarios of the demo script *)

(** A move below the tolerance in a calm market changes nothing. *)
Example scenario_A :
  SignalEngine.build_plan SignalEngine.default demo_snapshot 1400.5 1400 0.01
  = Ok (CurveUpdatePlan.make (10 ^ 18) (10 ^ 18) 1000000 None None None).
Proof. vm_compute. reflexivity. Qed.

(** A 2% move in a turbulent market touches every field but [mult_x]. *)
Example scenario_B :
  SignalEngine.build_plan SignalEngine.default demo_snapshot 1428 1400 0.05
  = Ok (CurveUpdatePlan.make (10 ^ 18) 1020000000000000000 1000000
          (Some 500) (Some (100 * 10 ^ 18)) (Some 142800000000)).
Proof. vm_compute. reflexivity. Qed.

(** The two rejected prices the specification lists. *)
Example rejects_zero_price :
  SignalEngine.build_plan SignalEngine.default demo_snapshot 1400 0 0.01
  = Raise SignalEngine.InvalidInput.
Proof. reflexivity. Qed.

Example rejects_negative_price :
  SignalEngine.build_plan SignalEngine.default demo_snapshot 1400 (-5) 0.01
  = Raise SignalEngine.InvalidInput.
Proof. reflexivity. Qed.

(** ** Facts about binary64 comparisons *)

Section FloatOrder.

Lemma Prim2SF_zero : Prim2SF 0%float = S754_zero false.
Proof. reflexivity. Qed.

Lemma SFcompare_Eq_sym (x y : spec_float) :
  SFcompare x y = Some Eq -> SFcompare y x = Some Eq.
Proof.
  destruct x as [sx|sx| |sx mx ex], y as [sy|sy| |sy my ey]; simpl;
    try destruct sx; try destruct sy; try discriminate; auto.
  all: destruct (ex ?= ey) eqn:E; try discriminate;
    apply Z.compare_eq in E; subst ey;
    destruct (Pos.compare_cont Eq mx my) eqn:M; try discriminate;
    apply Pos.compare_eq in M; subst my; intros _;
    now rewrite Z.compare_refl, Pos.compare_cont_refl.
Qed.

(** A positive price passes the guard of [build_plan]. *)
Lemma positive_not_leb_zero (x : float) :
  (0 <? x)%float = true -> (x <=? 0)%float = false.
Proof.
  rewrite ltb_spec, leb_spec, Prim2SF_zero.
  unfold SFltb, SFleb.
  destruct (Prim2SF x) as [s|s| |s m e]; simpl; try destruct s;
    try discriminate; auto.
Qed.

(** What passes the guard is not a zero, so the division is defined. *)
Lemma not_leb_zero_not_eqb_zero (x : float) :
  (x <=? 0)%float = false -> (x =? 0)%float = false.
Proof.
  rewrite leb_spec, eqb_spec. unfold SFleb, SFeqb.
  destruct (SFcompare (Prim2SF x) (Prim2SF 0)) as [[]|]; auto; discriminate.
Qed.

(** Equality at a threshold does not count as exceeding it. *)
Lemma eqb_not_gt (x y : float) :
  (x =? y)%float = true -> Py.gt x y = false.
Proof.
  unfold Py.gt. rewrite eqb_spec, ltb_spec. unfold SFeqb, SFltb.
  destruct (SFcompare (Prim2SF x) (Prim2SF y)) as [[]|] eqn:E; try discriminate.
  intros _. now rewrite (SFcompare_Eq_sym _ _ E).
Qed.

End FloatOrder.

(** ** What a call of [build_plan] computes *)

Section BuildPlan.

Import SignalEngine.

Variable self : SignalEngine.t.
Variable snapshot : CurveSnapshot.t.
Variables predicted_price current_price realized_volatility : float.

Let ratio := price_ratio predicted_price current_price.
Let moved := price_moved self predicted_price current_price.
Let vol := volatile self realized_volatility.

(** Past the guard: name the two triggers in the body of [build_plan] and
    unfold the parts of the plan next to them. *)
Ltac past_guard G :=
  unfold build_plan, Py.truediv;
  rewrite ?G, (not_leb_zero_not_eqb_zero _ G); cbn [bind];
  change (predicted_price / current_price)%float with ratio;
  change (Py.gt (abs (ratio - 1)) (price_tolerance self)) with moved;
  change (Py.gt realized_volatility (volatility_threshold self)) with vol;
  unfold mult_y_is, concentration_is, candidate_target_y_is, assemble;
  change (price_ratio predicted_price current_price) with ratio;
  change (price_moved self predicted_price current_price) with moved;
  change (volatile self realized_volatility) with vol;
  destruct (concentration_bounds self) as [lo up]; cbn [fst snd] in *.

Lemma build_plan_guard :
  (current_price <=? 0)%float = true ->
  build_plan self snapshot predicted_price current_price realized_volatility
  = Raise InvalidInput.
Proof. intros G. unfold build_plan. now rewrite G. Qed.

Lemma build_plan_inv (plan : CurveUpdatePlan.t) :
  build_plan self snapshot predicted_price current_price realized_volatility
  = Ok plan ->
  (current_price <=? 0)%float = false /\
  exists my c ty,
    mult_y_is self snapshot predicted_price current_price my /\
    concentration_is self snapshot realized_volatility c /\
    candidate_target_y_is self snapshot predicted_price current_price ty /\
    plan = assemble self snapshot realized_volatility my c ty.
Proof.
  destruct (current_price <=? 0)%float eqn:G;
    [rewrite (build_plan_guard G); discriminate|].
  past_guard G.
  intros H. split; [reflexivity|].
  destruct moved, vol; cbn [andb bind] in *;
    repeat match type of H with
      | context [Py.int_of_scaled ?n ?x] =>
          destruct (Py.int_of_scaled n x); cbn [bind] in H; try discriminate
      | context [(0 <? ?n)] =>
          destruct (0 <? n); cbn [bind] in H; try discriminate
      end;
    match type of H with
    | context [negb ?a || negb ?b] => destruct (negb a || negb b) eqn:M
    end;
    injection H as <-; do 3 eexists; rewrite ?M; eauto 10.
Qed.

(** Conversely, a call past the guard returns the assembled plan as soon
    as its integer conversions succeed. *)
Lemma build_plan_complete (my c ty : Z) :
  (current_price <=? 0)%float = false ->
  mult_y_is self snapshot predicted_price current_price my ->
  concentration_is self snapshot realized_volatility c ->
  candidate_target_y_is self snapshot predicted_price current_price ty ->
  build_plan self snapshot predicted_price current_price realized_volatility
  = Ok (assemble self snapshot realized_volatility my c ty).
Proof.
  intros G. past_guard G.
  destruct moved, vol; cbn [andb];
    intros Hm Hc Ht;
    try destruct Hm as (v1 & -> & ->); try destruct Hc as (v2 & -> & ->);
    try subst my; try subst c; cbn [bind];
    destruct (0 <? CurveSnapshot.target_y snapshot);
    try rewrite Ht; try subst ty; cbn [bind];
    match goal with
    | |- context [negb ?a || negb ?b] => destruct (negb a || negb b)
    end; reflexivity.
Qed.

(** Past the guard, an exception can only come out of one of the three
    [int(n * x)] conversions. *)
Lemma build_plan_raise_inv (e : exception) :
  (current_price <=? 0)%float = false ->
  build_plan self snapshot predicted_price current_price realized_volatility
  = Raise e ->
  (price_moved self predicted_price current_price = true /\
   Py.int_of_scaled (CurveSnapshot.mult_y snapshot) ratio = Raise e) \/
  (volatile self realized_volatility = true /\
   Py.int_of_scaled (CurveSnapshot.concentration snapshot)
     (concentration_widen_factor self) = Raise e) \/
  (price_moved self predicted_price current_price = true /\
   0 < CurveSnapshot.target_y snapshot /\
   Py.int_of_scaled (CurveSnapshot.target_y snapshot) ratio = Raise e).
Proof.
  intros G. past_guard G.
  intros H.
  destruct moved, vol; cbn [andb bind] in *;
    repeat match type of H with
      | context [Py.int_of_scaled ?n ?x] =>
          destruct (Py.int_of_scaled n x) eqn:?; cbn [bind] in H
      | context [(0 <? ?n)] =>
          destruct (0 <? n) eqn:?; cbn [bind] in H
      end;
    try match type of H with
      | context [negb ?a || negb ?b] => destruct (negb a || negb b)
      end;
    try discriminate; injection H as <-;
    repeat match goal with
      | P : (0 <? _) = true |- _ => apply Z.ltb_lt in P
      end;
    auto 6.
Qed.

End BuildPlan.

(** The exceptions [int(n * x)] can raise. *)
Lemma int_of_scaled_raises (n : Z) (x : float) (e : exception) :
  Py.int_of_scaled n x = Raise e ->
  e = OverflowError "int too large to convert to float" \/
  e = ValueError "cannot convert float NaN to integer" \/
  e = OverflowError "cannot convert float infinity to integer".
Proof.
  unfold Py.int_of_scaled, Py.int_mul_float, Py.int_to_float, Py.float_to_int.
  destruct (binary_normalize prec emax n 0 false); cbn [bind];
    match goal with
    | |- context [Prim2SF ?y] => destruct (Prim2SF y)
    | _ => idtac
    end; intros H; try discriminate; injection H as <-; auto.
Qed.

(** ** Validation and error paths *)

Lemma conversions_succeed_iff self snapshot pp cp rv :
  conversions_succeed self snapshot pp cp rv <->
  exists my c ty,
    mult_y_is self snapshot pp cp my /\
    concentration_is self snapshot rv c /\
    candidate_target_y_is self snapshot pp cp ty.
Proof.
  unfold conversions_succeed, mult_y_is, concentration_is, candidate_target_y_is.
  split.
  - intros (Hm & Hc & Ht).
    destruct (price_moved self pp cp), (volatile self rv); cbn [andb];
      try (destruct Hm as [v1 Hm]; [reflexivity|]);
      try (destruct Hc as [v2 Hc]; [reflexivity|]);
      destruct (0 <? CurveSnapshot.target_y snapshot) eqn:T;
      try (apply Z.ltb_lt in T; destruct (Ht eq_refl T) as [v3 Hv3]);
      eauto 12.
  - intros (my & c & ty & Hm & Hc & Ht).
    destruct (price_moved self pp cp), (volatile self rv); cbn [andb] in *;
      repeat split; intros; try discriminate;
      try (destruct Hm as (v1 & Hm & _); eauto; fail);
      try (destruct Hc as (v2 & Hc & _); eauto; fail);
      match goal with
      | P : 0 < _ |- _ => apply Z.ltb_lt in P; rewrite P in Ht; eauto
      end.
Qed.

(** C1 (as stated, refuted): a positive current price is claimed never to
    raise.  With the finite prices 1e308 and 1e-308 their ratio overflows
    to infinity, and [int] of it raises [OverflowError]. *)
Lemma positive_price_can_raise :
  (0 <? 1e-308)%float = true /\
  SignalEngine.build_plan SignalEngine.default demo_snapshot 1e308 1e-308 0.01
  = Raise (OverflowError "cannot convert float infinity to integer").
Proof. split; vm_compute; reflexivity. Qed.

(** C1 (amended): [build_plan] raises [InvalidInput] exactly when
    [current_price <= 0], whatever the other inputs are, so nothing past the
    guard is computed then.  With [current_price > 0] it returns a plan
    exactly when every [int(n * x)] conversion it reaches succeeds, and any
    exception it raises is the [OverflowError] or [ValueError] of such a
    conversion. *)
Theorem build_plan_error_paths (self : SignalEngine.t) (snapshot : CurveSnapshot.t)
    (predicted_price current_price realized_volatility : float) :
  let call := SignalEngine.build_plan self snapshot
                predicted_price current_price realized_volatility in
  (call = Raise SignalEngine.InvalidInput <-> (current_price <=? 0)%float = true) /\
  ((0 <? current_price)%float = true ->
   ((exists plan, call = Ok plan) <->
    conversions_succeed self snapshot
      predicted_price current_price realized_volatility) /\
   (forall e, call = Raise e ->
      e = OverflowError "int too large to convert to float" \/
      e = ValueError "cannot convert float NaN to integer" \/
      e = OverflowError "cannot convert float infinity to integer")).
Proof.
  intros call. subst call. split.
  - split.
    + intros H. destruct (current_price <=? 0)%float eqn:G; [reflexivity|].
      destruct (build_plan_raise_inv _ _ _ _ _ _ G H)
        as [(_ & E)|[(_ & E)|(_ & _ & E)]];
        apply int_of_scaled_raises in E;
        destruct E as [E|[E|E]]; discriminate E.
    + apply build_plan_guard.
  - intros P. pose proof (positive_not_leb_zero _ P) as G. split.
    + rewrite conversions_succeed_iff. split.
      * intros (plan & H). apply build_plan_inv in H.
        destruct H as (_ & my & c & ty & Hm & Hc & Ht & _).
        exists my, c, ty. auto.
      * intros (my & c & ty & Hm & Hc & Ht).
        eexists. eapply build_plan_complete; eassumption.
    + intros e H.
      destruct (build_plan_raise_inv _ _ _ _ _ _ G H)
        as [(_ & E)|[(_ & E)|(_ & _ & E)]];
        now apply int_of_scaled_raises in E.
Qed.

Lemma build_plan_error_paths_witness :
  (0 <? 1400)%float = true /\
  exists plan,
    SignalEngine.build_plan SignalEngine.default demo_snapshot 1428 1400 0.05
    = Ok plan.
Proof.
  split; [reflexivity|].
  apply (proj1 (proj2 (build_plan_error_paths
                         SignalEngine.default demo_snapshot 1428 1400 0.05)
                 eq_refl)).
  repeat split; intros; eexists; vm_compute; reflexivity.
Defined.

(** ** The multiplier *)

(** C2 (as stated, refuted): with [mult_y = 3] and a price ratio of 3/5 the
    product is 1.7999999999999998; rounding it gives 2, but the plan holds
    [max(1, int(...)) = 1]. *)
Lemma mult_y_not_rounded :
  (0 <? 5)%float = true /\
  Py.gt (deviation 3 5) (SignalEngine.price_tolerance SignalEngine.default) = true /\
  (x <- Py.int_mul_float (CurveSnapshot.mult_y small_snapshot) (price_ratio 3 5) ;;
   spec_round x) = Ok 2 /\
  exists plan,
    SignalEngine.build_plan SignalEngine.default small_snapshot 3 5 0.01 = Ok plan /\
    CurveUpdatePlan.mult_y plan = 1 /\
    CurveUpdatePlan.mult_y plan <> Z.max 1 2.
Proof.
  repeat split; try (vm_compute; reflexivity).
  eexists. split; [vm_compute; reflexivity|]. split; [reflexivity|discriminate].
Qed.

(** C2 (amended): for a call with [current_price > 0] that returns a plan,
    if [deviation > price_tolerance] the plan's [mult_y] is
    [max(1, int(snapshot.mult_y * price_ratio))], the product truncated
    toward zero; otherwise, and in particular when [deviation] equals
    [price_tolerance], it is [snapshot.mult_y]. *)
Theorem mult_y_adjustment (self : SignalEngine.t) (snapshot : CurveSnapshot.t)
    (predicted_price current_price realized_volatility : float)
    (plan : CurveUpdatePlan.t) :
  (0 <? current_price)%float = true ->
  SignalEngine.build_plan self snapshot
    predicted_price current_price realized_volatility = Ok plan ->
  let ratio := price_ratio predicted_price current_price in
  let dev := deviation predicted_price current_price in
  (if Py.gt dev (SignalEngine.price_tolerance self)
   then exists v,
          Py.int_of_scaled (CurveSnapshot.mult_y snapshot) ratio = Ok v /\
          CurveUpdatePlan.mult_y plan = Z.max 1 v
   else CurveUpdatePlan.mult_y plan = CurveSnapshot.mult_y snapshot) /\
  ((dev =? SignalEngine.price_tolerance self)%float = true ->
   CurveUpdatePlan.mult_y plan = CurveSnapshot.mult_y snapshot).
Proof.
  intros _ H ratio dev. apply build_plan_inv in H.
  destruct H as (_ & my & c & ty & Hm & _ & _ & ->).
  unfold mult_y_is, price_moved in Hm. subst ratio dev.
  cbn [assemble CurveUpdatePlan.mult_y].
  split; [exact Hm|].
  intros E. apply eqb_not_gt in E. now rewrite E in Hm.
Qed.

Lemma mult_y_adjustment_witness :
  exists v,
    Py.int_of_scaled (CurveSnapshot.mult_y demo_snapshot) (price_ratio 1428 1400)
    = Ok v /\
    CurveUpdatePlan.mult_y plan_B = Z.max 1 v.
Proof.
  refine (proj1 (mult_y_adjustment SignalEngine.default demo_snapshot
                   1428 1400 0.05 plan_B _ _));
    vm_compute; reflexivity.
Defined.

(** C9: for a call with [current_price > 0] in which the multiplier
    adjustment triggers, the returned plan's [mult_y] is at least 1. *)
Theorem mult_y_floor (self : SignalEngine.t) (snapshot : CurveSnapshot.t)
    (predicted_price current_price realized_volatility : float)
    (plan : CurveUpdatePlan.t) :
  (0 <? current_price)%float = true ->
  Py.gt (deviation predicted_price current_price)
    (SignalEngine.price_tolerance self) = true ->
  SignalEngine.build_plan self snapshot
    predicted_price current_price realized_volatility = Ok plan ->
  1 <= CurveUpdatePlan.mult_y plan.
Proof.
  intros _ D H. apply build_plan_inv in H.
  destruct H as (_ & my & c & ty & Hm & _ & _ & ->).
  unfold mult_y_is, price_moved in Hm. rewrite D in Hm.
  destruct Hm as (v & _ & ->). cbn. lia.
Qed.

(** A forecast that collapses the ratio to 1e-300 / 1400. *)
Lemma mult_y_floor_witness :
  1 <= CurveUpdatePlan.mult_y
         (CurveUpdatePlan.make (10 ^ 18) 1 1000000 None
            (Some (100 * 10 ^ 18)) (Some 0)).
Proof.
  apply (mult_y_floor SignalEngine.default demo_snapshot 1e-300 1400 0.01);
    vm_compute; reflexivity.
Defined.

(** C8: for a call with [current_price > 0], whatever the deviation and
    the volatility, the returned plan's [mult_x] is [snapshot.mult_x]. *)
Theorem mult_x_passes_through (self : SignalEngine.t) (snapshot : CurveSnapshot.t)
    (predicted_price current_price realized_volatility : float)
    (plan : CurveUpdatePlan.t) :
  (0 <? current_price)%float = true ->
  SignalEngine.build_plan self snapshot
    predicted_price current_price realized_volatility = Ok plan ->
  CurveUpdatePlan.mult_x plan = CurveSnapshot.mult_x snapshot.
Proof.
  intros _ H. apply build_plan_inv in H.
  now destruct H as (_ & my & c & ty & _ & _ & _ & ->).
Qed.

Lemma mult_x_passes_through_witness :
  CurveUpdatePlan.mult_x plan_B = CurveSnapshot.mult_x demo_snapshot.
Proof.
  apply (mult_x_passes_through SignalEngine.default demo_snapshot 1428 1400 0.05);
    vm_compute; reflexivity.
Defined.

(** ** The rebalance targets *)

(** C3 (as stated, refuted): with [target_y = 3] and a price ratio of 3/5
    the rounded candidate would be 2, but the plan carries [int(...) = 1]. *)
Lemma target_y_not_rounded :
  (0 <? 5)%float = true /\
  Py.gt (deviation 3 5) (SignalEngine.price_tolerance SignalEngine.default) = true /\
  0 < CurveSnapshot.target_y small_snapshot /\
  (x <- Py.int_mul_float (CurveSnapshot.target_y small_snapshot) (price_ratio 3 5) ;;
   spec_round x) = Ok 2 /\
  exists plan,
    SignalEngine.build_plan SignalEngine.default small_snapshot 3 5 0.01 = Ok plan /\
    CurveUpdatePlan.target_y plan = Some 1 /\
    CurveUpdatePlan.target_y plan <> Some 2.
Proof.
  repeat split; try (vm_compute; reflexivity).
  eexists. split; [vm_compute; reflexivity|]. split; [reflexivity|discriminate].
Qed.

(** C3 (amended): for a call with [current_price > 0] that returns a plan,
    the candidate [target_x] is [snapshot.target_x]; the candidate
    [target_y] is [int(snapshot.target_y * price_ratio)], truncated toward
    zero, if [deviation > price_tolerance] and [snapshot.target_y > 0], and
    [snapshot.target_y] otherwise.  The plan carries the candidate pair
    when it differs from the snapshot's pair in at least one component, and
    carries neither target otherwise. *)
Theorem rebalance_targets (self : SignalEngine.t) (snapshot : CurveSnapshot.t)
    (predicted_price current_price realized_volatility : float)
    (plan : CurveUpdatePlan.t) :
  (0 <? current_price)%float = true ->
  SignalEngine.build_plan self snapshot
    predicted_price current_price realized_volatility = Ok plan ->
  let ratio := price_ratio predicted_price current_price in
  let dev := deviation predicted_price current_price in
  let candidate_x := CurveSnapshot.target_x snapshot in
  exists candidate_y,
    (if Py.gt dev (SignalEngine.price_tolerance self)
        && (0 <? CurveSnapshot.target_y snapshot)
     then Py.int_of_scaled (CurveSnapshot.target_y snapshot) ratio = Ok candidate_y
     else candidate_y = CurveSnapshot.target_y snapshot) /\
    ((candidate_x <> CurveSnapshot.target_x snapshot \/
      candidate_y <> CurveSnapshot.target_y snapshot) ->
     CurveUpdatePlan.target_x plan = Some candidate_x /\
     CurveUpdatePlan.target_y plan = Some candidate_y) /\
    (~ (candidate_x <> CurveSnapshot.target_x snapshot \/
        candidate_y <> CurveSnapshot.target_y snapshot) ->
     CurveUpdatePlan.target_x plan = None /\
     CurveUpdatePlan.target_y plan = None).
Proof.
  intros _ H ratio dev candidate_x. apply build_plan_inv in H.
  destruct H as (_ & my & c & ty & _ & _ & Ht & ->).
  exists ty. split; [exact Ht|].
  subst candidate_x. cbn [assemble CurveUpdatePlan.target_x CurveUpdatePlan.target_y].
  rewrite Z.eqb_refl. cbn [negb orb].
  destruct (Z.eqb_spec ty (CurveSnapshot.target_y snapshot)) as [E|E]; cbn [negb];
    split; intros D; auto.
  - destruct D as [D|D]; contradiction.
  - exfalso. apply D. now right.
Qed.

Lemma rebalance_targets_witness :
  CurveUpdatePlan.target_x plan_B = Some (CurveSnapshot.target_x demo_snapshot) /\
  CurveUpdatePlan.target_y plan_B = Some 142800000000.
Proof.
  destruct (rebalance_targets SignalEngine.default demo_snapshot
              1428 1400 0.05 plan_B)
    as (y & Hy & Hpresent & _); [vm_compute; reflexivity ..|].
  assert (E : y = 142800000000)
    by (vm_compute in Hy; injection Hy as <-; reflexivity).
  subst y. apply Hpresent. right. discriminate.
Defined.

(** C4: in every plan [build_plan] returns, [target_x] and [target_y] are
    both absent or both present, and when present at least one of them
    differs from the snapshot's value. *)
Theorem rebalance_atomic (self : SignalEngine.t) (snapshot : CurveSnapshot.t)
    (predicted_price current_price realized_volatility : float)
    (plan : CurveUpdatePlan.t) :
  SignalEngine.build_plan self snapshot
    predicted_price current_price realized_volatility = Ok plan ->
  (CurveUpdatePlan.target_x plan = None /\ CurveUpdatePlan.target_y plan = None) \/
  (exists x y,
     CurveUpdatePlan.target_x plan = Some x /\
     CurveUpdatePlan.target_y plan = Some y /\
     (x <> CurveSnapshot.target_x snapshot \/ y <> CurveSnapshot.target_y snapshot)).
Proof.
  intros H. apply build_plan_inv in H.
  destruct H as (_ & my & c & ty & _ & _ & _ & ->).
  cbn [assemble CurveUpdatePlan.target_x CurveUpdatePlan.target_y].
  rewrite Z.eqb_refl. cbn [negb orb].
  destruct (Z.eqb_spec ty (CurveSnapshot.target_y snapshot)) as [E|E]; cbn [negb].
  - now left.
  - right. exists (CurveSnapshot.target_x snapshot), ty. auto.
Qed.

Lemma rebalance_atomic_witness :
  (CurveUpdatePlan.target_x plan_B = None /\ CurveUpdatePlan.target_y plan_B = None) \/
  (exists x y,
     CurveUpdatePlan.target_x plan_B = Some x /\
     CurveUpdatePlan.target_y plan_B = Some y /\
     (x <> CurveSnapshot.target_x demo_snapshot \/
      y <> CurveSnapshot.target_y demo_snapshot)).
Proof.
  apply (rebalance_atomic SignalEngine.default demo_snapshot 1428 1400 0.05).
  vm_compute. reflexivity.
Defined.

(** C10: if [snapshot.target_y] is 0 then, for a call with
    [current_price > 0] and however large the deviation, the returned plan
    carries neither [target_x] nor [target_y]. *)
Theorem zero_target_y_disables_rebalance
    (self : SignalEngine.t) (snapshot : CurveSnapshot.t)
    (predicted_price current_price realized_volatility : float)
    (plan : CurveUpdatePlan.t) :
  CurveSnapshot.target_y snapshot = 0 ->
  (0 <? current_price)%float = true ->
  SignalEngine.build_plan self snapshot
    predicted_price current_price realized_volatility = Ok plan ->
  CurveUpdatePlan.target_x plan = None /\ CurveUpdatePlan.target_y plan = None.
Proof.
  intros Z0 _ H. apply build_plan_inv in H.
  destruct H as (_ & my & c & ty & _ & _ & Ht & ->).
  unfold candidate_target_y_is in Ht. rewrite Z0 in Ht.
  rewrite Z.ltb_irrefl, andb_false_r in Ht. subst ty.
  cbn [assemble CurveUpdatePlan.target_x CurveUpdatePlan.target_y].
  rewrite Z0, !Z.eqb_refl. cbn. auto.
Qed.

(** The demo pair with an empty target on the quote side, under the 2% move. *)
Lemma zero_target_y_disables_rebalance_witness :
  let plan := CurveUpdatePlan.make (10 ^ 18) 1020000000000000000 1000000
                (Some 500) None None in
  CurveUpdatePlan.target_x plan = None /\ CurveUpdatePlan.target_y plan = None.
Proof.
  apply (zero_target_y_disables_rebalance SignalEngine.default
           (CurveSnapshot.make 1000000 (10 ^ 18) (10 ^ 18) 0 (100 * 10 ^ 18) 0)
           1428 1400 0.05);
    vm_compute; reflexivity.
Defined.

(** ** The volatility branch: spread and concentration *)

(** C5: for a call with [current_price > 0], the plan's [spread] is present
    exactly when [realized_volatility > volatility_threshold] (so equality
    leaves it absent); when present it is
    [min(FEE_BASE, snapshot.spread + spread_step)] with
    [FEE_BASE = 1000000], hence at most [FEE_BASE]. *)
Theorem spread_update (self : SignalEngine.t) (snapshot : CurveSnapshot.t)
    (predicted_price current_price realized_volatility : float)
    (plan : CurveUpdatePlan.t) :
  (0 <? current_price)%float = true ->
  SignalEngine.build_plan self snapshot
    predicted_price current_price realized_volatility = Ok plan ->
  FEE_BASE = 1000000 /\
  ((exists v, CurveUpdatePlan.spread plan = Some v) <->
   Py.gt realized_volatility (SignalEngine.volatility_threshold self) = true) /\
  ((realized_volatility =? SignalEngine.volatility_threshold self)%float = true ->
   CurveUpdatePlan.spread plan = None) /\
  (forall v, CurveUpdatePlan.spread plan = Some v ->
     v = Z.min FEE_BASE
           (CurveSnapshot.spread snapshot + SignalEngine.spread_step self) /\
     v <= FEE_BASE).
Proof.
  intros _ H. apply build_plan_inv in H.
  destruct H as (_ & my & c & ty & _ & _ & _ & ->).
  cbn [assemble CurveUpdatePlan.spread]. unfold volatile.
  split; [reflexivity|]. split; [|split].
  - destruct (Py.gt realized_volatility _); split; eauto; try discriminate.
    intros (v & E). discriminate E.
  - intros E. apply eqb_not_gt in E. now rewrite E.
  - intros v. destruct (Py.gt realized_volatility _); [|discriminate].
    intros E. injection E as <-. split; [reflexivity|lia].
Qed.

Lemma spread_update_witness :
  500 = Z.min FEE_BASE
          (CurveSnapshot.spread demo_snapshot
           + SignalEngine.spread_step SignalEngine.default) /\
  500 <= FEE_BASE.
Proof.
  refine (proj2 (proj2 (proj2 (spread_update SignalEngine.default demo_snapshot
                                 1428 1400 0.05 plan_B _ _))) 500 _);
    vm_compute; reflexivity.
Defined.

(** C7 (as stated, refuted): a spread already at [FEE_BASE] is re-emitted,
    unchanged, when volatility is high. *)
Lemma spread_present_but_unchanged :
  (0 <? 1400)%float = true /\
  exists plan,
    SignalEngine.build_plan SignalEngine.default capped_snapshot 1428 1400 0.05
    = Ok plan /\
    CurveUpdatePlan.spread plan = Some (CurveSnapshot.spread capped_snapshot).
Proof.
  split; [reflexivity|]. eexists. split; [vm_compute; reflexivity|reflexivity].
Qed.

(** C7 (amended): for a call with [current_price > 0], a spread value carried
    by the plan is [min(FEE_BASE, snapshot.spread + spread_step)]; it equals
    [snapshot.spread] exactly when [spread_step] is 0 with the spread not
    above [FEE_BASE], or the spread is already [FEE_BASE] with a
    non-negative step.  So it differs from (exceeds) [snapshot.spread]
    whenever [spread_step > 0] and [snapshot.spread < FEE_BASE]. *)
Theorem spread_changes_below_cap (self : SignalEngine.t) (snapshot : CurveSnapshot.t)
    (predicted_price current_price realized_volatility : float)
    (plan : CurveUpdatePlan.t) (v : Z) :
  (0 <? current_price)%float = true ->
  SignalEngine.build_plan self snapshot
    predicted_price current_price realized_volatility = Ok plan ->
  CurveUpdatePlan.spread plan = Some v ->
  let s := CurveSnapshot.spread snapshot in
  let k := SignalEngine.spread_step self in
  v = Z.min FEE_BASE (s + k) /\
  (v = s <-> (k = 0 /\ s <= FEE_BASE) \/ (s = FEE_BASE /\ 0 <= k)) /\
  (0 < k -> s < FEE_BASE -> s < v).
Proof.
  intros _ H. apply build_plan_inv in H.
  destruct H as (_ & my & c & ty & _ & _ & _ & ->).
  cbn [assemble CurveUpdatePlan.spread].
  destruct (volatile self realized_volatility); [|discriminate].
  intros E. injection E as <-. cbv zeta. lia.
Qed.

Lemma spread_changes_below_cap_witness :
  CurveSnapshot.spread demo_snapshot < 500.
Proof.
  refine (proj2 (proj2 (spread_changes_below_cap SignalEngine.default
                          demo_snapshot 1428 1400 0.05 plan_B 500 _ _ _)) _ _);
    vm_compute; reflexivity.
Defined.

(** C6 (as stated, refuted): with bounds [(200000000, 1000000)] the clamp
    returns the first bound, which lies above the second. *)
Lemma concentration_outside_inverted_bounds :
  (0 <? 1400)%float = true /\
  exists plan,
    SignalEngine.build_plan inverted_engine demo_snapshot 1400.5 1400 0.01
    = Ok plan /\
    ~ (fst (SignalEngine.concentration_bounds inverted_engine)
       <= CurveUpdatePlan.concentration plan
       <= snd (SignalEngine.concentration_bounds inverted_engine)).
Proof.
  split; [reflexivity|]. eexists. split; [vm_compute; reflexivity|].
  cbn. lia.
Qed.

(** C6 (amended): for a call with [current_price > 0] that returns a plan,
    with [(lower, upper) = concentration_bounds]: when
    [realized_volatility > volatility_threshold] the plan's concentration is
    [max(lower, min(int(snapshot.concentration * concentration_widen_factor),
    upper))]; otherwise, and in particular at equality, it is
    [max(lower, min(snapshot.concentration, upper))].  Provided
    [lower <= upper], the returned concentration lies in [[lower, upper]];
    and in the normal-volatility branch a snapshot concentration inside the
    bounds is returned unchanged. *)
Theorem concentration_clamped (self : SignalEngine.t) (snapshot : CurveSnapshot.t)
    (predicted_price current_price realized_volatility : float)
    (plan : CurveUpdatePlan.t) :
  (0 <? current_price)%float = true ->
  SignalEngine.build_plan self snapshot
    predicted_price current_price realized_volatility = Ok plan ->
  let lower := fst (SignalEngine.concentration_bounds self) in
  let upper := snd (SignalEngine.concentration_bounds self) in
  let high := Py.gt realized_volatility (SignalEngine.volatility_threshold self) in
  (if high
   then exists c,
          Py.int_of_scaled (CurveSnapshot.concentration snapshot)
            (SignalEngine.concentration_widen_factor self) = Ok c /\
          CurveUpdatePlan.concentration plan = Z.max lower (Z.min c upper)
   else CurveUpdatePlan.concentration plan
        = Z.max lower (Z.min (CurveSnapshot.concentration snapshot) upper)) /\
  ((realized_volatility =? SignalEngine.volatility_threshold self)%float = true ->
   CurveUpdatePlan.concentration plan
   = Z.max lower (Z.min (CurveSnapshot.concentration snapshot) upper)) /\
  (lower <= upper -> lower <= CurveUpdatePlan.concentration plan <= upper) /\
  (high = false ->
   lower <= CurveSnapshot.concentration snapshot <= upper ->
   CurveUpdatePlan.concentration plan = CurveSnapshot.concentration snapshot).
Proof.
  intros _ H lower upper high. apply build_plan_inv in H.
  destruct H as (_ & my & c & ty & _ & Hc & _ & ->).
  cbn [assemble CurveUpdatePlan.concentration].
  unfold concentration_is, volatile in Hc. fold lower upper high in Hc.
  split; [exact Hc|]. split; [|split].
  - intros E. apply eqb_not_gt in E. fold high in E. now rewrite E in Hc.
  - intros B. destruct high; [destruct Hc as (v & _ & ->)|subst c]; lia.
  - intros N R. rewrite N in Hc. subst c. lia.
Qed.

Lemma concentration_clamped_witness :
  1000000 <= CurveUpdatePlan.concentration plan_B <= 200000000.
Proof.
  refine (proj1 (proj2 (proj2 (concentration_clamped SignalEngine.default
                                 demo_snapshot 1428 1400 0.05 plan_B _ _))) _);
    vm_compute; try reflexivity; discriminate.
Defined.

(** * Further properties of the engine *)

Section PlanPartsFunctional.

Variable self : SignalEngine.t.
Variable snapshot : CurveSnapshot.t.
Variables predicted_price current_price realized_volatility : float.

Lemma mult_y_is_functional (a b : Z) :
  mult_y_is self snapshot predicted_price current_price a ->
  mult_y_is self snapshot predicted_price current_price b -> a = b.
Proof.
  unfold mult_y_is.
  destruct (price_moved self predicted_price current_price); [|congruence].
  intros (v & Hv & ->) (w & Hw & ->). congruence.
Qed.

Lemma candidate_target_y_is_functional (a b : Z) :
  candidate_target_y_is self snapshot predicted_price current_price a ->
  candidate_target_y_is self snapshot predicted_price current_price b -> a = b.
Proof.
  unfold candidate_target_y_is.
  destruct (_ && _); congruence.
Qed.

Lemma concentration_is_functional (a b : Z) :
  concentration_is self snapshot realized_volatility a ->
  concentration_is self snapshot realized_volatility b -> a = b.
Proof.
  unfold concentration_is.
  destruct (volatile self realized_volatility); [|congruence].
  intros (v & Hv & ->) (w & Hw & ->). congruence.
Qed.

(** Past the guard, with neither trigger raised, nothing is converted and
    the plan is the snapshot with its concentration clamped. *)
Lemma quiet_plan_past_guard :
  (current_price <=? 0)%float = false ->
  price_moved self predicted_price current_price = false ->
  volatile self realized_volatility = false ->
  SignalEngine.build_plan self snapshot
    predicted_price current_price realized_volatility
  = Ok (CurveUpdatePlan.make
          (CurveSnapshot.mult_x snapshot) (CurveSnapshot.mult_y snapshot)
          (Z.max (fst (SignalEngine.concentration_bounds self))
             (Z.min (CurveSnapshot.concentration snapshot)
                (snd (SignalEngine.concentration_bounds self))))
          None None None).
Proof.
  intros G P V.
  rewrite (build_plan_complete self snapshot predicted_price current_price
             realized_volatility
             (CurveSnapshot.mult_y snapshot)
             (Z.max (fst (SignalEngine.concentration_bounds self))
                (Z.min (CurveSnapshot.concentration snapshot)
                   (snd (SignalEngine.concentration_bounds self))))
             (CurveSnapshot.target_y snapshot) G).
  - unfold assemble. now rewrite V, !Z.eqb_refl.
  - unfold mult_y_is. now rewrite P.
  - unfold concentration_is. now rewrite V.
  - unfold candidate_target_y_is. now rewrite P.
Qed.

End PlanPartsFunctional.

(** ** Not-a-number inputs *)

Lemma is_nan_Prim2SF (x : float) : is_nan x = true -> Prim2SF x = S754_nan.
Proof.
  unfold is_nan. rewrite eqb_spec. unfold SFeqb.
  destruct (Prim2SF x) as [s|s| |s m e]; simpl; auto.
  - discriminate.
  - destruct s; discriminate.
  - destruct s; rewrite Z.compare_refl, Pos.compare_cont_refl; discriminate.
Qed.

Lemma nan_not_leb (x y : float) : is_nan x = true -> (x <=? y)%float = false.
Proof.
  intros N. rewrite leb_spec, (is_nan_Prim2SF _ N). reflexivity.
Qed.

Lemma nan_not_gt (x y : float) : is_nan x = true -> Py.gt x y = false.
Proof.
  intros N. unfold Py.gt. rewrite ltb_spec, (is_nan_Prim2SF _ N).
  unfold SFltb. now destruct (Prim2SF y) as [s|s| |s m e].
Qed.

Lemma deviation_nan (predicted_price current_price : float) :
  is_nan predicted_price = true \/ is_nan current_price = true ->
  is_nan (deviation predicted_price current_price) = true.
Proof.
  intros N.
  assert (R : Prim2SF (predicted_price / current_price) = S754_nan).
  { rewrite div_spec. destruct N as [N|N]; rewrite (is_nan_Prim2SF _ N).
    - reflexivity.
    - now destruct (Prim2SF predicted_price). }
  unfold is_nan. rewrite eqb_spec. unfold deviation, price_ratio.
  now rewrite abs_spec, sub_spec, R.
Qed.

(** ** Quiet markets *)

(** X1: with a positive current price, a deviation that does not exceed
    the tolerance and a volatility that does not exceed the threshold,
    [build_plan] never raises: it returns the snapshot's multipliers, the
    snapshot's concentration clamped, and no optional field. *)
Theorem quiet_market_plan (self : SignalEngine.t) (snapshot : CurveSnapshot.t)
    (predicted_price current_price realized_volatility : float) :
  (0 <? current_price)%float = true ->
  Py.gt (deviation predicted_price current_price)
    (SignalEngine.price_tolerance self) = false ->
  Py.gt realized_volatility (SignalEngine.volatility_threshold self) = false ->
  SignalEngine.build_plan self snapshot
    predicted_price current_price realized_volatility
  = Ok (CurveUpdatePlan.make
          (CurveSnapshot.mult_x snapshot) (CurveSnapshot.mult_y snapshot)
          (Z.max (fst (SignalEngine.concentration_bounds self))
             (Z.min (CurveSnapshot.concentration snapshot)
                (snd (SignalEngine.concentration_bounds self))))
          None None None).
Proof.
  intros P. apply quiet_plan_past_guard. now apply positive_not_leb_zero.
Qed.

Lemma quiet_market_plan_witness :
  SignalEngine.build_plan SignalEngine.default demo_snapshot 1400.5 1400 0.01
  = Ok (CurveUpdatePlan.make (10 ^ 18) (10 ^ 18) 1000000 None None None).
Proof.
  apply (quiet_market_plan SignalEngine.default demo_snapshot 1400.5 1400 0.01);
    vm_compute; reflexivity.
Defined.

(** ** Independence of the two triggers *)

(** X2: the realised volatility has no influence on the multipliers and the
    rebalance targets: two calls that differ only in it and both return a
    plan agree on [mult_x], [mult_y], [target_x] and [target_y]. *)
Theorem price_fields_ignore_volatility
    (self : SignalEngine.t) (snapshot : CurveSnapshot.t)
    (predicted_price current_price volatility1 volatility2 : float)
    (plan1 plan2 : CurveUpdatePlan.t) :
  SignalEngine.build_plan self snapshot predicted_price current_price volatility1
  = Ok plan1 ->
  SignalEngine.build_plan self snapshot predicted_price current_price volatility2
  = Ok plan2 ->
  CurveUpdatePlan.mult_x plan1 = CurveUpdatePlan.mult_x plan2 /\
  CurveUpdatePlan.mult_y plan1 = CurveUpdatePlan.mult_y plan2 /\
  CurveUpdatePlan.target_x plan1 = CurveUpdatePlan.target_x plan2 /\
  CurveUpdatePlan.target_y plan1 = CurveUpdatePlan.target_y plan2.
Proof.
  intros H1 H2. apply build_plan_inv in H1, H2.
  destruct H1 as (_ & my1 & c1 & ty1 & Hm1 & _ & Ht1 & ->).
  destruct H2 as (_ & my2 & c2 & ty2 & Hm2 & _ & Ht2 & ->).
  rewrite (mult_y_is_functional _ _ _ _ _ _ Hm1 Hm2).
  rewrite (candidate_target_y_is_functional _ _ _ _ _ _ Ht1 Ht2).
  cbn. auto.
Qed.

Lemma price_fields_ignore_volatility_witness :
  CurveUpdatePlan.mult_x
    (CurveUpdatePlan.make (10 ^ 18) 1020000000000000000 1000000
       None (Some (100 * 10 ^ 18)) (Some 142800000000))
  = CurveUpdatePlan.mult_x plan_B /\
  1020000000000000000 = CurveUpdatePlan.mult_y plan_B /\
  Some (100 * 10 ^ 18) = CurveUpdatePlan.target_x plan_B /\
  Some 142800000000 = CurveUpdatePlan.target_y plan_B.
Proof.
  apply (price_fields_ignore_volatility SignalEngine.default demo_snapshot
           1428 1400 0.01 0.05);
    vm_compute; reflexivity.
Defined.

(** X3: the prices have no influence on the concentration and the spread:
    two calls that differ only in the predicted and the current price and
    both return a plan agree on [concentration] and [spread]. *)
Theorem volatility_fields_ignore_prices
    (self : SignalEngine.t) (snapshot : CurveSnapshot.t)
    (predicted1 current1 predicted2 current2 realized_volatility : float)
    (plan1 plan2 : CurveUpdatePlan.t) :
  SignalEngine.build_plan self snapshot predicted1 current1 realized_volatility
  = Ok plan1 ->
  SignalEngine.build_plan self snapshot predicted2 current2 realized_volatility
  = Ok plan2 ->
  CurveUpdatePlan.concentration plan1 = CurveUpdatePlan.concentration plan2 /\
  CurveUpdatePlan.spread plan1 = CurveUpdatePlan.spread plan2.
Proof.
  intros H1 H2. apply build_plan_inv in H1, H2.
  destruct H1 as (_ & my1 & c1 & ty1 & _ & Hc1 & _ & ->).
  destruct H2 as (_ & my2 & c2 & ty2 & _ & Hc2 & _ & ->).
  rewrite (concentration_is_functional _ _ _ _ _ Hc1 Hc2).
  cbn. auto.
Qed.

Lemma volatility_fields_ignore_prices_witness :
  CurveUpdatePlan.concentration
    (CurveUpdatePlan.make (10 ^ 18) (10 ^ 18) 1000000 (Some 500) None None)
  = CurveUpdatePlan.concentration plan_B /\
  Some 500 = CurveUpdatePlan.spread plan_B.
Proof.
  apply (volatility_fields_ignore_prices SignalEngine.default demo_snapshot
           1400.5 1400 1428 1400 0.05);
    vm_compute; reflexivity.
Defined.

(** ** Not-a-number prices and volatilities *)

(** X4: a NaN predicted price or a NaN current price never triggers the
    price adjustment: a returned plan keeps [snapshot.mult_y] and carries
    no rebalance target. *)
Theorem nan_price_leaves_price_fields
    (self : SignalEngine.t) (snapshot : CurveSnapshot.t)
    (predicted_price current_price realized_volatility : float)
    (plan : CurveUpdatePlan.t) :
  is_nan predicted_price = true \/ is_nan current_price = true ->
  SignalEngine.build_plan self snapshot
    predicted_price current_price realized_volatility = Ok plan ->
  CurveUpdatePlan.mult_y plan = CurveSnapshot.mult_y snapshot /\
  CurveUpdatePlan.target_x plan = None /\
  CurveUpdatePlan.target_y plan = None.
Proof.
  intros N H. apply build_plan_inv in H.
  destruct H as (_ & my & c & ty & Hm & _ & Ht & ->).
  pose proof (nan_not_gt _ (SignalEngine.price_tolerance self)
                (deviation_nan _ _ N)) as D.
  unfold mult_y_is, candidate_target_y_is, price_moved in Hm, Ht.
  rewrite D in Hm, Ht. cbn [andb] in Ht. subst my ty.
  unfold assemble. rewrite !Z.eqb_refl. cbn. auto.
Qed.

Lemma nan_price_leaves_price_fields_witness :
  let plan := CurveUpdatePlan.make (10 ^ 18) (10 ^ 18) 1000000
                (Some 500) None None in
  CurveUpdatePlan.mult_y plan = CurveSnapshot.mult_y demo_snapshot /\
  CurveUpdatePlan.target_x plan = None /\
  CurveUpdatePlan.target_y plan = None.
Proof.
  apply (nan_price_leaves_price_fields SignalEngine.default demo_snapshot
           nan 1400 0.05);
    [left|]; vm_compute; reflexivity.
Defined.

(** X5: a NaN current price is not rejected by the guard: when the
    volatility does not exceed the threshold, the call returns the
    unchanged multipliers, the clamped concentration and no optional
    field, whatever the predicted price. *)
Theorem nan_current_price_is_accepted
    (self : SignalEngine.t) (snapshot : CurveSnapshot.t)
    (predicted_price current_price realized_volatility : float) :
  is_nan current_price = true ->
  Py.gt realized_volatility (SignalEngine.volatility_threshold self) = false ->
  SignalEngine.build_plan self snapshot
    predicted_price current_price realized_volatility
  = Ok (CurveUpdatePlan.make
          (CurveSnapshot.mult_x snapshot) (CurveSnapshot.mult_y snapshot)
          (Z.max (fst (SignalEngine.concentration_bounds self))
             (Z.min (CurveSnapshot.concentration snapshot)
                (snd (SignalEngine.concentration_bounds self))))
          None None None).
Proof.
  intros N V. apply quiet_plan_past_guard; [now apply nan_not_leb| |exact V].
  apply nan_not_gt, deviation_nan. now right.
Qed.

Lemma nan_current_price_is_accepted_witness :
  SignalEngine.build_plan SignalEngine.default demo_snapshot 1428 nan 0.01
  = Ok (CurveUpdatePlan.make (10 ^ 18) (10 ^ 18) 1000000 None None None).
Proof.
  apply (nan_current_price_is_accepted SignalEngine.default demo_snapshot
           1428 nan 0.01);
    vm_compute; reflexivity.
Defined.

(** X6: a NaN realised volatility never takes the high-volatility branch:
    a returned plan carries no spread and its concentration is the
    snapshot's, clamped and not widened. *)
Theorem nan_volatility_is_calm
    (self : SignalEngine.t) (snapshot : CurveSnapshot.t)
    (predicted_price current_price realized_volatility : float)
    (plan : CurveUpdatePlan.t) :
  is_nan realized_volatility = true ->
  SignalEngine.build_plan self snapshot
    predicted_price current_price realized_volatility = Ok plan ->
  CurveUpdatePlan.spread plan = None /\
  CurveUpdatePlan.concentration plan
  = Z.max (fst (SignalEngine.concentration_bounds self))
      (Z.min (CurveSnapshot.concentration snapshot)
         (snd (SignalEngine.concentration_bounds self))).
Proof.
  intros N H. apply build_plan_inv in H.
  destruct H as (_ & my & c & ty & _ & Hc & _ & ->).
  pose proof (nan_not_gt _ (SignalEngine.volatility_threshold self) N) as V.
  unfold concentration_is, volatile in Hc. rewrite V in Hc. subst c.
  unfold assemble, volatile. rewrite V. cbn. auto.
Qed.

Lemma nan_volatility_is_calm_witness :
  let plan := CurveUpdatePlan.make (10 ^ 18) 1020000000000000000 1000000
                None (Some (100 * 10 ^ 18)) (Some 142800000000) in
  CurveUpdatePlan.spread plan = None /\
  CurveUpdatePlan.concentration plan = Z.max 1000000 (Z.min 1000000 200000000).
Proof.
  apply (nan_volatility_is_calm SignalEngine.default demo_snapshot
           1428 1400 nan);
    vm_compute; reflexivity.
Defined.

(** ** Exceptions, for every input *)

(** X7: whatever the inputs (NaN and infinite floats included), an
    exception raised by [build_plan] is the [ValueError] of the guard or
    one of the three errors of the [int]/[float] conversions; in
    particular the division never raises [ZeroDivisionError]. *)
Theorem build_plan_exceptions (self : SignalEngine.t) (snapshot : CurveSnapshot.t)
    (predicted_price current_price realized_volatility : float) (e : exception) :
  SignalEngine.build_plan self snapshot
    predicted_price current_price realized_volatility = Raise e ->
  e = ValueError "Current price must be positive" \/
  e = OverflowError "int too large to convert to float" \/
  e = ValueError "cannot convert float NaN to integer" \/
  e = OverflowError "cannot convert float infinity to integer".
Proof.
  intros H. destruct (current_price <=? 0)%float eqn:G.
  - rewrite (build_plan_guard _ _ _ _ _ G) in H. injection H as <-. now left.
  - right.
    destruct (build_plan_raise_inv _ _ _ _ _ _ G H)
      as [(_ & E)|[(_ & E)|(_ & _ & E)]];
      now apply int_of_scaled_raises in E.
Qed.

Lemma build_plan_exceptions_witness :
  OverflowError "cannot convert float infinity to integer"
  = ValueError "Current price must be positive" \/
  OverflowError "cannot convert float infinity to integer"
  = OverflowError "int too large to convert to float" \/
  OverflowError "cannot convert float infinity to integer"
  = ValueError "cannot convert float NaN to integer" \/
  OverflowError "cannot convert float infinity to integer"
  = OverflowError "cannot convert float infinity to integer".
Proof.
  apply (build_plan_exceptions SignalEngine.default demo_snapshot
           1e308 1e-308 0.01).
  vm_compute. reflexivity.
Defined.

(** ** Invariants of the plan *)

(** X8: the clamp is stable: if a returned plan's concentration is fed
    back as the snapshot's concentration to the same engine, a call on it
    that does not take the high-volatility branch returns that same
    concentration (whatever the bounds). *)
Theorem concentration_is_stable
    (self : SignalEngine.t) (snapshot snapshot' : CurveSnapshot.t)
    (predicted_price current_price realized_volatility : float)
    (predicted_price' current_price' realized_volatility' : float)
    (plan plan' : CurveUpdatePlan.t) :
  SignalEngine.build_plan self snapshot
    predicted_price current_price realized_volatility = Ok plan ->
  CurveSnapshot.concentration snapshot' = CurveUpdatePlan.concentration plan ->
  Py.gt realized_volatility' (SignalEngine.volatility_threshold self) = false ->
  SignalEngine.build_plan self snapshot'
    predicted_price' current_price' realized_volatility' = Ok plan' ->
  CurveUpdatePlan.concentration plan' = CurveUpdatePlan.concentration plan.
Proof.
  intros H E V H'. apply build_plan_inv in H, H'.
  destruct H as (_ & my & c & ty & _ & Hc & _ & ->).
  destruct H' as (_ & my' & c' & ty' & _ & Hc' & _ & ->).
  cbn [assemble CurveUpdatePlan.concentration] in *.
  unfold concentration_is, volatile in Hc, Hc'. rewrite V, E in Hc'.
  destruct (Py.gt realized_volatility _);
    [destruct Hc as (v & _ & ->)|subst c]; lia.
Qed.

Lemma concentration_is_stable_witness :
  CurveUpdatePlan.concentration
    (CurveUpdatePlan.make (10 ^ 18) (10 ^ 18) 1000000 None None None)
  = CurveUpdatePlan.concentration plan_B.
Proof.
  apply (concentration_is_stable SignalEngine.default demo_snapshot demo_snapshot
           1428 1400 0.05 1400.5 1400 0.01);
    vm_compute; reflexivity.
Defined.

(** X9: a well-formed snapshot gives a well-formed plan.  With bounds in
    order, a non-negative [spread_step], [0 <= snapshot.spread <= FEE_BASE]
    and [snapshot.mult_y >= 1], every returned plan has [mult_y >= 1], a
    concentration within the bounds, and a spread, when present, that is
    at least the snapshot's and at most [FEE_BASE]. *)
Theorem plan_keeps_snapshot_invariants
    (self : SignalEngine.t) (snapshot : CurveSnapshot.t)
    (predicted_price current_price realized_volatility : float)
    (plan : CurveUpdatePlan.t) :
  fst (SignalEngine.concentration_bounds self)
  <= snd (SignalEngine.concentration_bounds self) ->
  0 <= SignalEngine.spread_step self ->
  0 <= CurveSnapshot.spread snapshot <= FEE_BASE ->
  1 <= CurveSnapshot.mult_y snapshot ->
  SignalEngine.build_plan self snapshot
    predicted_price current_price realized_volatility = Ok plan ->
  1 <= CurveUpdatePlan.mult_y plan /\
  fst (SignalEngine.concentration_bounds self)
  <= CurveUpdatePlan.concentration plan
  <= snd (SignalEngine.concentration_bounds self) /\
  (forall v, CurveUpdatePlan.spread plan = Some v ->
     CurveSnapshot.spread snapshot <= v <= FEE_BASE).
Proof.
  intros B K S M H. apply build_plan_inv in H.
  destruct H as (_ & my & c & ty & Hm & Hc & _ & ->).
  cbn [assemble CurveUpdatePlan.mult_y CurveUpdatePlan.concentration
         CurveUpdatePlan.spread].
  unfold mult_y_is in Hm. unfold concentration_is in Hc.
  repeat split.
  - destruct (price_moved _ _ _); [destruct Hm as (v & _ & ->)|subst my]; lia.
  - destruct (volatile _ _); [destruct Hc as (v & _ & ->)|subst c]; lia.
  - destruct (volatile _ _); [destruct Hc as (v & _ & ->)|subst c]; lia.
  - destruct (volatile _ _); [|discriminate]. injection H as <-. lia.
  - destruct (volatile _ _); [|discriminate]. injection H as <-. lia.
Qed.

Lemma plan_keeps_snapshot_invariants_witness :
  1 <= CurveUpdatePlan.mult_y plan_B /\
  1000000 <= CurveUpdatePlan.concentration plan_B <= 200000000 /\
  0 <= 500 <= FEE_BASE.
Proof.
  pose proof (plan_keeps_snapshot_invariants SignalEngine.default demo_snapshot
                1428 1400 0.05 plan_B
                ltac:(vm_compute; discriminate)
                ltac:(vm_compute; discriminate)
                ltac:(split; vm_compute; discriminate)
                ltac:(vm_compute; discriminate)
                ltac:(vm_compute; reflexivity)) as (M & C & Hs).
  repeat split; try apply M; try apply C; apply (Hs 500 eq_refl).
Defined.

(** * Properties of the update bot *)


Section ExecutePlanSteps.

Import PropAMMBot.

Variable self : PropAMMBot.t.

Lemma transactions_for_calls (nonce : Z) (calls : list PropAMM.call) :
  map tx_call (transactions_for self nonce calls) = calls.
Proof.
  revert nonce. induction calls as [|c rest IH]; intros nonce; cbn;
    [reflexivity|now rewrite IH].
Qed.

Lemma transactions_for_length (nonce : Z) (calls : list PropAMM.call) :
  length (transactions_for self nonce calls) = length calls.
Proof.
  rewrite <- (transactions_for_calls nonce calls) at 2. now rewrite length_map.
Qed.

Lemma transactions_for_nonces (nonce : Z) (calls : list PropAMM.call) :
  map tx_nonce (transactions_for self nonce calls)
  = map (fun i => nonce + Z.of_nat i) (seq 0 (length calls)) /\
  Forall (fun tx => tx_from tx = account_address self /\
                    tx_gas tx = 400000 /\
                    tx_gasPrice tx = gas_price (web3 self))
    (transactions_for self nonce calls).
Proof.
  revert nonce. induction calls as [|c rest IH]; intros nonce; cbn.
  - split; [reflexivity|constructor].
  - destruct (IH (nonce + 1)) as [N F]. split.
    + rewrite N, <- seq_shift, map_map, Z.add_0_r. f_equal.
      apply map_ext. intros i. lia.
    + constructor; auto.
Qed.


Lemma accepted_prefix_is_prefix (calls : list PropAMM.call) :
  exists rest, calls = (accepted_prefix calls ++ rest)%list.
Proof.
  induction calls as [|c calls [rest IH]]; cbn; [now exists []|].
  destruct (PropAMM.accepts c); cbn.
  - exists rest. now rewrite <- IH.
  - now exists (c :: calls).
Qed.

(** A live [execute_plan], step by step: the calls are built in order;
    each accepted one is sent before the next is built, and the first
    rejected one ends the run with its [Web3ValidationError]. *)
Lemma execute_plan_live (plan : CurveUpdatePlan.t) (sent : list Transaction) :
  dry_run (config self) = false ->
  let new :=
    transactions_for self
      (get_transaction_count (web3 self) (account_address self))
      (accepted_prefix (planned_calls self plan)) in
  execute_plan self plan sent
  = (match find (fun c => negb (PropAMM.accepts c)) (planned_calls self plan) with
     | None => Ok (map (send_raw_transaction (web3 self)) new)
     | Some c => Raise (Web3ValidationError (PropAMM.name c))
     end,
     (sent ++ new)%list).
Proof.
  intros D new. subst new.
  unfold execute_plan, planned_calls, contract_function, _send, and_then,
    ret, raise.
  rewrite D.
  destruct (CurveUpdatePlan.spread plan) as [sp|];
    destruct (CurveUpdatePlan.target_x plan) as [tx|],
             (CurveUpdatePlan.target_y plan) as [ty|];
    cbn [app accepted_prefix find transactions_for map negb];
    repeat match goal with
      | |- context [PropAMM.accepts ?c] =>
          destruct (PropAMM.accepts c);
          cbn [app accepted_prefix find transactions_for map negb]
      end;
    rewrite ?app_nil_r, <- ?app_assoc; reflexivity.
Qed.

Lemma execute_plan_dry (plan : CurveUpdatePlan.t) (sent : list Transaction) :
  dry_run (config self) = true -> execute_plan self plan sent = (Ok [], sent).
Proof. intros D. unfold execute_plan. now rewrite D. Qed.

Lemma sent_by_live (plan : CurveUpdatePlan.t) :
  dry_run (config self) = false ->
  sent_by self plan
  = transactions_for self
      (get_transaction_count (web3 self) (account_address self))
      (accepted_prefix (planned_calls self plan)).
Proof.
  intros D. unfold sent_by. now rewrite (execute_plan_live plan [] D).
Qed.

End ExecutePlanSteps.

Section ExecutePlan.

Import PropAMMBot.

Variable self : PropAMMBot.t.
Variable plan : CurveUpdatePlan.t.

(** X10: [execute_plan] only appends to what the node has received, also
    when it raises; and when it returns, it returns one hash per
    transaction it sent, in the order sent. *)
Theorem execute_plan_appends (sent : list Transaction) :
  snd (execute_plan self plan sent) = (sent ++ sent_by self plan)%list /\
  (forall tx_hashes,
     fst (execute_plan self plan sent) = Ok tx_hashes ->
     tx_hashes = map (send_raw_transaction (web3 self)) (sent_by self plan)).
Proof.
  destruct (dry_run (config self)) eqn:D.
  - unfold sent_by. rewrite !(execute_plan_dry self plan _ D). cbn.
    rewrite app_nil_r. split; [reflexivity|]. intros h E. now injection E as <-.
  - rewrite (sent_by_live self plan D), (execute_plan_live self plan sent D).
    cbn [fst snd]. split; [reflexivity|].
    intros h. destruct (find _ _); [discriminate|]. intros E.
    now injection E as <-.
Qed.


(** X12: the transactions of one call carry consecutive nonces starting at
    the account's transaction count, and all of them the account as
    sender, a gas limit of 400000 and the gas price read once at the
    start. *)
Theorem execute_plan_nonces :
  map tx_nonce (sent_by self plan)
  = map (fun i => get_transaction_count (web3 self) (account_address self)
                  + Z.of_nat i)
      (seq 0 (length (sent_by self plan))) /\
  Forall (fun tx => tx_from tx = account_address self /\
                    tx_gas tx = 400000 /\
                    tx_gasPrice tx = gas_price (web3 self))
    (sent_by self plan).
Proof.
  destruct (dry_run (config self)) eqn:D.
  - unfold sent_by. rewrite (execute_plan_dry self plan _ D). cbn.
    split; [reflexivity|constructor].
  - rewrite (sent_by_live self plan D).
    destruct (transactions_for_nonces self
                (get_transaction_count (web3 self) (account_address self))
                (accepted_prefix (planned_calls self plan))) as [N F].
    split; [|exact F].
    rewrite N. f_equal. f_equal.
    now rewrite transactions_for_length.
Qed.

End ExecutePlan.

Lemma execute_plan_appends_witness :
  ["0xaa"; "0xbb"; "0xcc"]
  = map (send_raw_transaction (PropAMMBot.web3 demo_bot))
      (PropAMMBot.sent_by demo_bot plan_B).
Proof.
  apply (proj2 (execute_plan_appends demo_bot plan_B [])).
  vm_compute. reflexivity.
Defined.


(** ** The engine and the bot together *)



Section ChainValues.

Variable bot : PropAMMBot.t.




End ChainValues.

Section Main.

Import PropAMMBot.

Variable bot : PropAMMBot.t.
Variables predicted_price current_price realized_vol : float.
Variable sent : list Transaction.

(** X14: [main] submits no transaction when the engine raises or when the
    run is dry; in particular a current price that is not positive ends
    the cycle with the [ValueError] of the guard and nothing sent. *)
Theorem main_aborts_without_sending :
  ((current_price <=? 0)%float = true ->
   main bot predicted_price current_price realized_vol sent
   = (Raise SignalEngine.InvalidInput, sent)) /\
  ((forall plan,
      SignalEngine.build_plan SignalEngine.default (fetch_snapshot bot)
        predicted_price current_price realized_vol <> Ok plan) \/
   dry_run (config bot) = true ->
   snd (main bot predicted_price current_price realized_vol sent) = sent).
Proof.
  unfold main, raise, ret, and_then. split.
  - intros G. now rewrite (build_plan_guard _ _ _ _ _ G).
  - intros [N|D];
      destruct (SignalEngine.build_plan _ _ _ _ _) as [plan|e]; try reflexivity.
    + now destruct (N plan).
    + now rewrite D.
Qed.



End Main.

Lemma main_aborts_without_sending_witness :
  PropAMMBot.main demo_bot 1428 (-5) 0.05 []
  = (Raise SignalEngine.InvalidInput, []).
Proof.
  apply (proj1 (main_aborts_without_sending demo_bot 1428 (-5) 0.05 [])).
  vm_compute. reflexivity.
Defined.



(** * Properties of the demo's encoder *)

Section EncodeActionsFacts.

Variable address : string.
Variable encode : PropAMM.call -> string.
Variable hex : string -> string.
Variable plan : CurveUpdatePlan.t.



End EncodeActionsFacts.


(** * Signs through the float conversions *)

Section Signs.

Lemma binary_round_aux_nonneg (mx ex : Z) (lx : location) :
  sf_nonneg (binary_round_aux prec emax false mx ex lx) = true.
Proof.
  unfold binary_round_aux.
  destruct (shr_fexp prec emax mx ex lx) as [mrs' e'].
  destruct (shr_fexp prec emax _ e' loc_Exact) as [mrs'' e''].
  destruct (shr_m mrs''); [reflexivity| |reflexivity].
  now destruct (e'' <=? emax - prec).
Qed.

Lemma binary_round_nonneg (m : positive) (e : Z) :
  sf_nonneg (binary_round prec emax false m e) = true.
Proof.
  unfold binary_round. destruct (shl_align m e _) as [mz ez].
  apply binary_round_aux_nonneg.
Qed.

Lemma binary_normalize_nonneg (n : Z) :
  0 <= n -> sf_nonneg (binary_normalize prec emax n 0 false) = true.
Proof.
  destruct n; intros H; [reflexivity|apply binary_round_nonneg|lia].
Qed.

Lemma SF2Prim_nonneg (x : spec_float) :
  sf_nonneg x = true -> sf_nonneg (Prim2SF (SF2Prim x)) = true.
Proof.
  destruct x as [[]|[]| |[] m e]; try discriminate; try reflexivity.
  intros _. unfold SF2Prim, Z.ldexp.
  rewrite ldshiftexp_spec, of_uint63_spec.
  pose proof (binary_normalize_nonneg _
                (proj1 (Uint63.to_Z_bounded (Uint63.of_Z (Z.pos m))))) as N.
  destruct (binary_normalize prec emax _ 0 false) as [s|s| |s m' e'];
    cbn [SFldexp sf_nonneg] in *; auto.
  destruct s; [discriminate|]. apply binary_round_nonneg.
Qed.

Lemma SFmul_nonneg (x y : spec_float) :
  sf_nonneg x = true -> sf_nonneg y = true ->
  sf_nonneg (SF64mul x y) = true.
Proof.
  destruct x as [[]|[]| |[] mx ex], y as [[]|[]| |[] my ey];
    try discriminate; try reflexivity.
  intros _ _. apply binary_round_aux_nonneg.
Qed.

Lemma SFdiv_nonneg (x y : spec_float) :
  sf_nonneg x = true -> sf_nonneg y = true ->
  sf_nonneg (SF64div x y) = true.
Proof.
  destruct x as [[]|[]| |[] mx ex], y as [[]|[]| |[] my ey];
    try discriminate; try reflexivity.
  intros _ _. unfold SF64div, SFdiv.
  destruct (SFdiv_core_binary prec emax _ _ _ _) as [[mz ez] lz].
  apply binary_round_aux_nonneg.
Qed.

Lemma positive_nonneg (x : float) :
  (0 <? x)%float = true -> sf_nonneg (Prim2SF x) = true.
Proof.
  rewrite ltb_spec, Prim2SF_zero. unfold SFltb.
  destruct (Prim2SF x) as [s|[]| |[] m e]; simpl; try discriminate; reflexivity.
Qed.

Lemma float_to_int_nonneg (x : float) (z : Z) :
  sf_nonneg (Prim2SF x) = true -> Py.float_to_int x = Ok z -> 0 <= z.
Proof.
  unfold Py.float_to_int.
  destruct (Prim2SF x) as [s|s| |[] m e]; try discriminate;
    intros _ H; injection H as <-; [lia|].
  cbn [cond_Zopp]. apply Z.shiftl_nonneg. lia.
Qed.

(** [int(n * x)] of a non-negative integer and a non-negative float is
    not negative. *)
Lemma int_of_scaled_nonneg (n : Z) (x : float) (z : Z) :
  0 <= n -> sf_nonneg (Prim2SF x) = true ->
  Py.int_of_scaled n x = Ok z -> 0 <= z.
Proof.
  intros Hn Hx. unfold Py.int_of_scaled, Py.int_mul_float, Py.int_to_float.
  pose proof (binary_normalize_nonneg n Hn) as N.
  destruct (binary_normalize prec emax n 0 false) as [s|s| |s m e] eqn:E;
    cbn [bind]; try discriminate;
    apply float_to_int_nonneg; rewrite mul_spec;
    apply SFmul_nonneg; auto; apply SF2Prim_nonneg; exact N.
Qed.

End Signs.

(** X19: with positive predicted and current prices and a snapshot whose
    [mult_y], [target_x] and [target_y] are not negative, no field of a
    returned plan that the price adjusts is negative: neither [mult_y]
    nor, when present, the rebalance targets. *)
Theorem positive_prices_keep_targets_nonnegative
    (self : SignalEngine.t) (snapshot : CurveSnapshot.t)
    (predicted_price current_price realized_volatility : float)
    (plan : CurveUpdatePlan.t) :
  (0 <? predicted_price)%float = true ->
  (0 <? current_price)%float = true ->
  0 <= CurveSnapshot.mult_y snapshot ->
  0 <= CurveSnapshot.target_x snapshot ->
  0 <= CurveSnapshot.target_y snapshot ->
  SignalEngine.build_plan self snapshot
    predicted_price current_price realized_volatility = Ok plan ->
  0 <= CurveUpdatePlan.mult_y plan /\
  (forall x, CurveUpdatePlan.target_x plan = Some x -> 0 <= x) /\
  (forall y, CurveUpdatePlan.target_y plan = Some y -> 0 <= y).
Proof.
  intros Pp Pc My Tx Ty H. apply build_plan_inv in H.
  destruct H as (_ & my & c & ty & Hm & _ & Ht & ->).
  assert (R : sf_nonneg (Prim2SF (price_ratio predicted_price current_price))
              = true).
  { unfold price_ratio. rewrite div_spec.
    apply SFdiv_nonneg; now apply positive_nonneg. }
  assert (Hty : 0 <= ty).
  { unfold candidate_target_y_is in Ht.
    destruct (_ && _); [|lia].
    now apply (int_of_scaled_nonneg _ _ _ Ty R). }
  unfold mult_y_is in Hm. unfold assemble. cbv zeta.
  cbn [CurveUpdatePlan.mult_y CurveUpdatePlan.target_x CurveUpdatePlan.target_y].
  split; [|split].
  - destruct (price_moved _ _ _); [destruct Hm as (v & _ & ->)|]; lia.
  - intros x. destruct (negb _ || negb _); [|discriminate].
    intros E. injection E as <-. exact Tx.
  - intros y. destruct (negb _ || negb _); [|discriminate].
    intros E. injection E as <-. exact Hty.
Qed.

Lemma positive_prices_keep_targets_nonnegative_witness :
  0 <= CurveUpdatePlan.mult_y plan_B /\
  0 <= 100 * 10 ^ 18 /\
  0 <= 142800000000.
Proof.
  pose proof (positive_prices_keep_targets_nonnegative SignalEngine.default
                demo_snapshot 1428 1400 0.05 plan_B
                ltac:(vm_compute; reflexivity)
                ltac:(vm_compute; reflexivity)
                ltac:(vm_compute; discriminate)
                ltac:(vm_compute; discriminate)
                ltac:(vm_compute; discriminate)
                ltac:(vm_compute; reflexivity)) as (M & X & Y).
  repeat split; [apply M|apply (X _ eq_refl)|apply (Y _ eq_refl)].
Defined.

(** * The default engine on the chain *)

(** X20: every [updateCurveParams] a live [main] sends, starting from an
    empty log, carries a concentration within the default bounds
    [[1000000, 200000000]], whatever the chain holds and whatever the
    signals are. *)
Theorem main_sends_concentration_within_default_bounds
    (bot : PropAMMBot.t) (predicted_price current_price realized_vol : float)
    (tx : Transaction) (pair : string) (mx my c : Z) :
  In tx (snd (PropAMMBot.main bot predicted_price current_price realized_vol [])) ->
  tx_call tx = PropAMM.updateCurveParams pair mx my c ->
  1000000 <= c <= 200000000.
Proof.
  unfold PropAMMBot.main, PropAMMBot.and_then, PropAMMBot.ret, PropAMMBot.raise.
  destruct (SignalEngine.build_plan _ _ _ _ _) as [plan|e] eqn:H;
    [|intros []].
  apply build_plan_inv in H.
  destruct H as (_ & my' & c' & ty & _ & Hc & _ & E).
  assert (B : 1000000 <= CurveUpdatePlan.concentration plan <= 200000000).
  { rewrite E. cbn. unfold concentration_is in Hc.
    cbn [SignalEngine.default SignalEngine.concentration_bounds fst snd] in Hc.
    destruct (volatile _ _); [destruct Hc as (v & _ & ->)|subst c']; lia. }
  clear E Hc.
  destruct (dry_run (PropAMMBot.config bot)) eqn:D; [intros []|].
  rewrite (execute_plan_live bot plan [] D). cbn [app].
  destruct (find _ _); cbn [snd]; intros I T;
    apply (in_map tx_call) in I;
    rewrite transactions_for_calls in I;
    destruct (accepted_prefix_is_prefix (PropAMMBot.planned_calls bot plan))
      as [rest P];
    assert (J : In (tx_call tx) (PropAMMBot.planned_calls bot plan))
      by (rewrite P; apply in_or_app; now left);
    clear I P; rewrite T in J; unfold PropAMMBot.planned_calls in J;
    destruct (CurveUpdatePlan.spread plan);
    destruct (CurveUpdatePlan.target_x plan), (CurveUpdatePlan.target_y plan);
    cbn in J;
    repeat match goal with
      | J : _ \/ _ |- _ => destruct J as [J|J]
      | J : False |- _ => destruct J
      end;
    try discriminate; injection J as _ _ _ <-; exact B.
Qed.

Lemma main_sends_concentration_within_default_bounds_witness :
  1000000 <= 1000000 <= 200000000.
Proof.
  apply (main_sends_concentration_within_default_bounds demo_bot 1428 1400 0.05
           {| tx_call := PropAMM.updateCurveParams "WETH/USDC"
                           (10 ^ 18) 1020000000000000000 1000000;
              tx_from := "0xmaker";
              tx_nonce := 7;
              tx_gas := 400000;
              tx_gasPrice := 30 |}
           "WETH/USDC" (10 ^ 18) 1020000000000000000 1000000).
  - vm_compute. left. reflexivity.
  - reflexivity.
Defined.
